(** * ComputeSum: the number reader and the sum/average reporter

    A shallow embedding of [samples/export/Python/ComputeSum.py] (generated
    by Structorizer 3.30-08) and the properties of its two components:
    the subroutine [readNumbers] and the main program.

    The program is read with the semantics of Python 3, in the version
    that accepts its text (3.14).  There a clause [except Exception, name:]
    names the two classes [Exception] and [name], as
    [except (Exception, name):] does; it binds nothing.  Neither [error]
    nor [failure] is bound anywhere in the program, so a try statement
    that has to look at such a clause raises [NameError]. *)

From Stdlib Require Import ZArith Lia Ascii String SpecFloat.
From stdpp Require Import gmap strings list.
From Equations Require Import Equations.

Local Open Scope string_scope.
Local Open Scope Z_scope.

(** ** Exceptions *)

(** The exception classes the program can meet.  Every one of them derives
    from [Exception], the class both handlers of the program name. *)
Inductive exn_class : Set :=
| Exception
| IndexError
| ValueError
| EOFError
| OSError
| SystemError
| NameError
| ZeroDivisionError
| OverflowError.

(** An exception object: its class and [str(e)], the text of its argument
    ([Exception()] has none, and its text is empty). *)
Record exn : Set := mkExn { exn_cls : exn_class; str : string }.

Definition isinstance_Exception (e : exn) : bool :=
  match exn_cls e with
  | Exception | IndexError | ValueError | EOFError | OSError
  | SystemError | NameError | ZeroDivisionError | OverflowError => true
  end.

Inductive result (A : Type) : Type :=
| Ret (a : A)
| Raise (e : exn).
Arguments Ret {A} a.
Arguments Raise {A} e.

(** ** The state of a run *)

(** What the file system holds under a name: text, or nothing that can be
    opened, with the indicator [- code] that opening it yields. *)
Inductive file_entry : Set :=
| NoAccess (code : N)
| Text (content : string).

(** Calls of the file API, in the order they happen. *)
Inductive event : Set :=
| EvOpen (name : string) (fileNo : Z)
| EvEOF (fileNo : Z)
| EvRead (fileNo : Z)
| EvClose (fileNo : Z).

(** Binary64 values, as [float] objects of Python. *)
Definition float : Set := spec_float.

(** What [print] receives, and what reaches standard output. *)
Inductive out_item : Set :=
| OStr (s : string)
| OFloat (f : float).

Inductive out_event : Set :=
| Prompt (s : string)
| PrintLn (items : list out_item).

(** References to list objects. *)
Definition ref : Set := nat.

Record state : Type := mkState {
  fs : string -> file_entry;
  handles : gmap Z (list string);
  next_fileNo : positive;
  trace : list event;
  heap : gmap nat (list Z);
  stdin : list string;
  stdout : list out_event
}.

Definition set_handles (f : gmap Z (list string) -> gmap Z (list string)) (st : state) : state :=
  mkState (fs st) (f (handles st)) (next_fileNo st) (trace st) (heap st) (stdin st) (stdout st).

Definition set_next_fileNo (p : positive) (st : state) : state :=
  mkState (fs st) (handles st) p (trace st) (heap st) (stdin st) (stdout st).

Definition log (ev : event) (st : state) : state :=
  mkState (fs st) (handles st) (next_fileNo st) (trace st ++ [ev]) (heap st) (stdin st) (stdout st).

Definition set_heap (f : gmap nat (list Z) -> gmap nat (list Z)) (st : state) : state :=
  mkState (fs st) (handles st) (next_fileNo st) (trace st) (f (heap st)) (stdin st) (stdout st).

Definition set_stdin (l : list string) (st : state) : state :=
  mkState (fs st) (handles st) (next_fileNo st) (trace st) (heap st) l (stdout st).

Definition emit (o : out_event) (st : state) : state :=
  mkState (fs st) (handles st) (next_fileNo st) (trace st) (heap st) (stdin st) (stdout st ++ [o]).

(** ** Computations: state passing with exceptions *)

Definition M (A : Type) : Type := state -> result A * state.

Definition ret {A} (a : A) : M A := fun st => (Ret a, st).

Definition raise {A} (e : exn) : M A := fun st => (Raise e, st).

Definition bind {A B} (c : M A) (k : A -> M B) : M B := fun st =>
  match c st with
  | (Ret a, st1) => k a st1
  | (Raise e, st1) => (Raise e, st1)
  end.

Declare Scope py_scope.
Delimit Scope py_scope with py.
Notation "x <- c ;; k" := (bind c (fun x => k))
  (at level 100, c at next level, right associativity) : py_scope.
Notation "c ;; k" := (bind c (fun _ => k))
  (at level 100, right associativity) : py_scope.
Local Open Scope py_scope.

(** [try: body finally: cleanup]: the cleanup runs on every exit of the
    body; the outcome of the body stands unless the cleanup itself raises. *)
Definition try_finally {A} (body : M A) (cleanup : M unit) : M A := fun st =>
  let '(r, st1) := body st in
  match cleanup st1 with
  | (Ret _, st2) => (r, st2)
  | (Raise e, st2) => (Raise e, st2)
  end.

(** The failure of reading a name that nothing binds. *)
Definition name_error (name : string) : exn :=
  mkExn NameError ("name '" ++ name ++ "' is not defined").

(** The value of a name that no assignment of the program binds. *)
Definition unbound_name {A} (name : string) : M A := raise (name_error name).

(** The classes that a clause [except first, second:] names: both
    expressions are evaluated, from left to right, when the clause is
    looked at. *)
Definition except_tuple (first : exn -> bool) (second : M (exn -> bool)) :
    M (exn -> bool) := fun st =>
  match second st with
  | (Ret c, st1) => (Ret (fun e => first e || c e), st1)
  | (Raise e, st1) => (Raise e, st1)
  end.

(** [try: body except classes: handler].  When the body raises, the
    expression [classes] is evaluated: if that raises, the new exception
    leaves the statement; else the handler runs when the exception is of
    one of the classes, and the exception goes on when it is not. *)
Definition try_except {A} (body : M A) (classes : M (exn -> bool)) (handler : M A) :
    M A := fun st =>
  match body st with
  | (Ret a, st1) => (Ret a, st1)
  | (Raise e, st1) =>
      match classes st1 with
      | (Ret matches, st2) => if matches e then handler st2 else (Raise e, st2)
      | (Raise e', st2) => (Raise e', st2)
      end
  end.

(** ** Tokens of a number file *)

Definition is_space (c : ascii) : bool :=
  match nat_of_ascii c with
  | 9%nat | 10%nat | 11%nat | 12%nat | 13%nat | 32%nat => true
  | _ => false
  end.

(** Modelled from the spec: the file API is not part of the sample; a
    token is a whitespace/newline-delimited run of characters. *)
Fixpoint split_ws (s : string) (word : string) : list string :=
  match s with
  | EmptyString => if String.eqb word "" then [] else [word]
  | String c s' =>
      if is_space c
      then (if String.eqb word "" then split_ws s' "" else word :: split_ws s' "")
      else split_ws s' (word ++ String c "")
  end.

Definition tokens (content : string) : list string := split_ws content "".

Definition digit_of (c : ascii) : option Z :=
  let n := nat_of_ascii c in
  if (48 <=? n)%nat && (n <=? 57)%nat then Some (Z.of_nat (n - 48)) else None.

Fixpoint parse_digits (s : string) (acc : Z) : option Z :=
  match s with
  | EmptyString => Some acc
  | String c s' =>
      match digit_of c with
      | Some d => parse_digits s' (10 * acc + d)
      | None => None
      end
  end.

(** Modelled from the spec: the file API is not part of the sample; a
    token is parsed as one integer, an optional sign and decimal digits. *)
Definition parse_int (tok : string) : option Z :=
  match tok with
  | EmptyString => None
  | String "-" (String _ _ as ds) => Z.opp <$> parse_digits ds 0
  | String "+" (String _ _ as ds) => parse_digits ds 0
  | String _ _ => parse_digits tok 0
  end.

(** ** The file API *)

(** Modelled from the spec: [fileOpen] is not part of the sample.  It
    yields a handle indicator, positive for an opened resource and at
    most 0 when the resource cannot be opened. *)
Definition fileOpen (filePath : string) : M Z := fun st =>
  match fs st filePath with
  | NoAccess code =>
      let fileNo := - Z.of_N code in
      (Ret fileNo, log (EvOpen filePath fileNo) st)
  | Text content =>
      let fileNo := Z.pos (next_fileNo st) in
      (Ret fileNo,
       log (EvOpen filePath fileNo)
         (set_next_fileNo (Pos.succ (next_fileNo st))
            (set_handles <[fileNo := tokens content]> st)))
  end.

(** Modelled from the spec: [fileEOF] is not part of the sample.  It
    tells whether the end of the resource is reached. *)
Definition fileEOF (fileNo : Z) : M bool := fun st =>
  match handles st !! fileNo with
  | Some [] => (Ret true, log (EvEOF fileNo) st)
  | Some (_ :: _) => (Ret false, log (EvEOF fileNo) st)
  | None => (Raise (mkExn OSError "Invalid file handle"), log (EvEOF fileNo) st)
  end.

(** Modelled from the spec: [fileReadInt] is not part of the sample.  It
    reads one token and parses it as an integer; a token that is no
    integer and the end of the resource are read errors. *)
Definition fileReadInt (fileNo : Z) : M Z := fun st =>
  match handles st !! fileNo with
  | Some (tok :: rest) =>
      let st1 := log (EvRead fileNo) (set_handles <[fileNo := rest]> st) in
      match parse_int tok with
      | Some number => (Ret number, st1)
      | None => (Raise (mkExn ValueError ("invalid literal for int: " ++ tok)), st1)
      end
  | Some [] => (Raise (mkExn EOFError "End of file reached"), log (EvRead fileNo) st)
  | None => (Raise (mkExn OSError "Invalid file handle"), log (EvRead fileNo) st)
  end.

(** Modelled from the spec: [fileClose] is not part of the sample.  It
    releases the handle. *)
Definition fileClose (fileNo : Z) : M unit := fun st =>
  (Ret tt, log (EvClose fileNo) (set_handles (delete fileNo) st)).

(** ** List objects *)

(** The position an index denotes in a list of [len] items: negative
    indices count from the end, anything else is out of range. *)
Definition list_index (len : nat) (i : Z) : option nat :=
  if (0 <=? i) && (i <? Z.of_nat len) then Some (Z.to_nat i)
  else if (- Z.of_nat len <=? i) && (i <? 0) then Some (Z.to_nat (i + Z.of_nat len))
  else None.

(** [values = []]. *)
Definition new_list (items : list Z) : M ref := fun st =>
  let r := fresh (dom (heap st)) in
  (Ret r, set_heap <[r := items]> st).

(** [numbers[i] = v]: item assignment never grows a list, an index out of
    range raises [IndexError]. *)
Definition list_setitem (numbers : ref) (i : Z) (v : Z) : M unit := fun st =>
  match heap st !! numbers with
  | Some l =>
      match list_index (length l) i with
      | Some k => (Ret tt, set_heap <[numbers := <[k := v]> l]> st)
      | None => (Raise (mkExn IndexError "list assignment index out of range"), st)
      end
  | None => (Raise (mkExn SystemError "no such object"), st)
  end.

(** [values[k]]. *)
Definition list_getitem (values : ref) (i : Z) : M Z := fun st =>
  match heap st !! values with
  | Some l =>
      match list_index (length l) i with
      | Some k =>
          match l !! k with
          | Some v => (Ret v, st)
          | None => (Raise (mkExn IndexError "list index out of range"), st)
          end
      | None => (Raise (mkExn IndexError "list index out of range"), st)
      end
  | None => (Raise (mkExn SystemError "no such object"), st)
  end.

(** ** readNumbers *)

(** A value together with the fact that it is the value of [x]: a test
    stays known in the branch that it selects. *)
Definition inspect {A : Type} (x : A) : {y : A | x = y} := exist _ x eq_refl.

(** The loop of [readNumbers]:
    [while (not fileEOF(fileNo) and nNumbers < maxNumbers)], yielding the
    value of [nNumbers] on leaving the loop. *)
Equations? read_loop (fileNo : Z) (numbers : ref) (maxNumbers nNumbers : Z)
    (st : state) : result Z * state
  by wf (Z.to_nat (maxNumbers - nNumbers)) lt :=
  read_loop fileNo numbers maxNumbers nNumbers st with fileEOF fileNo st := {
    | (Raise e, st1) := (Raise e, st1);
    | (Ret true, st1) := (Ret nNumbers, st1);
    | (Ret false, st1) with inspect (nNumbers <? maxNumbers) := {
        | exist _ false Hge := (Ret nNumbers, st1);
        | exist _ true Hlt with fileReadInt fileNo st1 := {
            | (Raise e, st2) := (Raise e, st2);
            | (Ret number, st2) with list_setitem numbers nNumbers number st2 := {
                | (Raise e, st3) := (Raise e, st3);
                | (Ret _, st3) :=
                    read_loop fileNo numbers maxNumbers (nNumbers + 1) st3 } } } }.
Proof. apply Z.ltb_lt in Hlt. lia. Qed.

(** Tries to read as many integer values as possible upto [maxNumbers]
    from file [fileName] into the given array [numbers].  Returns the
    number of the actually read numbers.  May cause an exception. *)
Definition readNumbers (fileName : string) (numbers : ref) (maxNumbers : Z) : M Z :=
  let nNumbers := 0 in
  fileNo <- fileOpen fileName ;;
  if fileNo <=? 0 then raise (mkExn Exception "File could not be opened!")
  else
    try_except
      (try_finally
         (read_loop fileNo numbers maxNumbers nNumbers)
         (fileClose fileNo))
      (except_tuple isinstance_Exception (unbound_name "error"))
      (raise (mkExn Exception "")).

(** ** Floating point, standard input and output *)

(** The [float] nearest to an integer (binary64, ties to even). *)
Definition float_of_int (z : Z) : float := binary_normalize 53 1024 z 0 false.

(** The conversion of an [int] operand of a [float] operation: an integer
    beyond the range of binary64 raises [OverflowError]. *)
Definition as_float (z : Z) : M float :=
  match float_of_int z with
  | S754_infinity _ => raise (mkExn OverflowError "int too large to convert to float")
  | f => ret f
  end.

(** [x + z] for a float [x] and an int [z]. *)
Definition float_add_int (x : float) (z : Z) : M float :=
  y <- as_float z ;;
  ret (SFadd 53 1024 x y).

(** [x / z] for a float [x] and an int [z]: a divisor 0 raises
    [ZeroDivisionError]. *)
Definition float_truediv_int (x : float) (z : Z) : M float :=
  y <- as_float z ;;
  match y with
  | S754_zero _ => raise (mkExn ZeroDivisionError "float division by zero")
  | _ => ret (SFdiv 53 1024 x y)
  end.

(** [print(items, sep='')]: one line on standard output. *)
Definition print (items : list out_item) : M unit := fun st =>
  (Ret tt, emit (PrintLn items) st).

(** [input(prompt)]: the prompt goes to standard output, the answer is the
    next line of standard input. *)
Definition input (prompt : string) : M string := fun st =>
  let st1 := emit (Prompt prompt) st in
  match stdin st1 with
  | line :: rest => (Ret line, set_stdin rest st1)
  | [] => (Raise (mkExn EOFError "EOF when reading a line"), st1)
  end.

(** [range(start, stop, step)].  The step of the program is the constant 1;
    a step of 0, which Python rejects, is given the empty range. *)
Definition range (start stop step : Z) : list Z :=
  let count :=
    if 0 <? step then (stop - start + step - 1) / step
    else if step <? 0 then (start - stop - step - 1) / (- step)
    else 0 in
  (fun i : nat => start + Z.of_nat i * step) <$> seq 0 (Z.to_nat count).

(** [for k in ks: acc = body(k, acc)]. *)
Fixpoint for_in {A} (ks : list Z) (body : Z -> A -> M A) (acc : A) : M A :=
  match ks with
  | [] => ret acc
  | k :: ks' => acc' <- body k acc ;; for_in ks' body acc'
  end.

(** ** The main program *)

(** Lines 61 to 67: the call of [readNumbers] under its handler.  The
    handler would print [failure] and assign nothing, so that [nValues]
    would keep the value it was given before the [try]. *)
Definition read_values (file_name : string) (values : ref) : M Z :=
  let nValues := 0 in
  try_except
    (readNumbers file_name values 1000)
    (except_tuple isinstance_Exception (unbound_name "failure"))
    (failure <- unbound_name "failure" ;;
     print [OStr (str failure)] ;;
     (* FIXME: unsupported jump/exit instruction!  exit -7 *)
     ret nValues).

(** Lines 69 to 74: the sum, the average and their output. *)
Definition report (values : ref) (nValues : Z) : M unit :=
  let sum := S754_zero false in
  sum <- for_in (range 0 (nValues - 1 + 1) 1)
           (fun k sum => v <- list_getitem values k ;; float_add_int sum v)
           sum ;;
  print [OStr "sum = "; OFloat sum] ;;
  average <- float_truediv_int sum nValues ;;
  print [OStr "average = "; OFloat average].

(** Lines 60 to 74: the block under [if (fileNo > 0)]. *)
Definition reporter (file_name : string) : M unit :=
  values <- new_list [] ;;
  nValues <- read_values file_name values ;;
  report values nValues.

(** Lines 46 to 74. *)
Definition main : M unit :=
  let fileNo := 1000 in
  file_name <- input "Name/path of the number file" ;;
  if fileNo >? 0 then reporter file_name
  else ret tt.

(** The calls of the file API that the loop makes when it stores [n]
    numbers: a test and a read for each of them, and the test that ends
    the loop. *)
Fixpoint loop_trace (fileNo : Z) (n : nat) : list event :=
  match n with
  | O => [EvEOF fileNo]
  | S n' => EvEOF fileNo :: EvRead fileNo :: loop_trace fileNo n'
  end.

(** The tokens [toks] are integers, and [ints] are their values. *)
Definition parsed (toks : list string) (ints : list Z) : Prop :=
  Forall2 (fun tok z => parse_int tok = Some z) toks ints.

(** ** Sample runs *)

(** A file system with a few number files; any other name cannot be
    opened. *)
Definition sample_fs (name : string) : file_entry :=
  if String.eqb name "numbers.txt" then Text "1 2 3 4"
  else if String.eqb name "three.txt" then Text "1 2 3"
  else if String.eqb name "broken.txt" then Text "1 x 3"
  else if String.eqb name "empty.txt" then Text ""
  else NoAccess 1.

(** The state at the start of a run whose user types [answers]. *)
Definition sample_state (answers : list string) : state :=
  mkState sample_fs ∅ 1%positive [] ∅ answers [].

(** The same with one list object, at reference 0. *)
Definition with_list (items : list Z) (st : state) : state :=
  set_heap <[0%nat := items]> st.

(** The outputs of the program. *)
Definition prompt_line : out_event := Prompt "Name/path of the number file".
Definition failure_line (e : exn) : out_event := PrintLn [OStr (str e)].
Definition sum_line (sum : float) : out_event := PrintLn [OStr "sum = "; OFloat sum].
Definition average_line (average : float) : out_event :=
  PrintLn [OStr "average = "; OFloat average].


(** ** Notions for stating what a call does and leaves alone *)

(** The number of reads among calls of the file API. *)
Fixpoint count_reads (evs : list event) : nat :=
  match evs with
  | [] => 0
  | EvRead _ :: evs' => S (count_reads evs')
  | _ :: evs' => count_reads evs'
  end.

(** Everything of the state but the handle [fileNo], the list [numbers]
    and the trace is the same in [st'] as in [st]. *)
Definition untouched (fileNo : Z) (numbers : ref) (st st' : state) : Prop :=
  fs st' = fs st /\
  stdin st' = stdin st /\
  stdout st' = stdout st /\
  (forall r, r <> numbers -> heap st' !! r = heap st !! r) /\
  (forall k, k <> fileNo -> handles st' !! k = handles st !! k).

(** An integer that has a binary64 value: its conversion does not
    overflow. *)
Definition convertible (v : Z) : Prop :=
  match float_of_int v with
  | S754_infinity _ => False
  | _ => True
  end.

(** The sum of integers in binary64, added from left to right to [acc]. *)
Definition float_sum (vs : list Z) (acc : float) : float :=
  fold_left (fun sum v => SFadd 53 1024 sum (float_of_int v)) vs acc.

(** * Properties *)

(** ** The loop, one iteration at a time *)

(** The loop of [readNumbers] unrolled once, in the words of the source:
    test [not fileEOF(fileNo) and nNumbers < maxNumbers], then read, store
    and count. *)
Lemma read_loop_step (fileNo : Z) (numbers : ref) (maxNumbers nNumbers : Z) (st : state) :
  read_loop fileNo numbers maxNumbers nNumbers st =
  (eof <- fileEOF fileNo ;;
   if negb eof && (nNumbers <? maxNumbers)
   then (number <- fileReadInt fileNo ;;
         list_setitem numbers nNumbers number ;;
         read_loop fileNo numbers maxNumbers (nNumbers + 1))
   else ret nNumbers) st.
Proof.
  unfold bind. funelim (read_loop fileNo numbers maxNumbers nNumbers st).
  all: repeat (simpl;
    match goal with
    | H : _ = (_, _) |- _ => rewrite H; clear H
    | H : (_ <? _) = _ |- _ => rewrite H
    end).
  all: reflexivity.
Qed.

(** The file API leaves list objects alone, and item assignment leaves
    the handles alone. *)
Lemma fileOpen_heap fileName st : heap (snd (fileOpen fileName st)) = heap st.
Proof. unfold fileOpen. destruct (fs st fileName); reflexivity. Qed.

Lemma fileEOF_heap fileNo st : heap (snd (fileEOF fileNo st)) = heap st.
Proof. unfold fileEOF. destruct (handles st !! fileNo) as [[|]|]; reflexivity. Qed.

Lemma fileReadInt_heap fileNo st : heap (snd (fileReadInt fileNo st)) = heap st.
Proof.
  unfold fileReadInt. destruct (handles st !! fileNo) as [[|tok rest]|]; try reflexivity.
  destruct (parse_int tok); reflexivity.
Qed.

(** What [readNumbers] does once the open has succeeded: the loop, the
    close whatever the loop did, and, when the loop has raised, the look
    at the clause of the handler, which raises [NameError]. *)
Lemma readNumbers_opened fileName numbers maxNumbers st fileNo st1 :
  fileOpen fileName st = (Ret fileNo, st1) ->
  0 < fileNo ->
  readNumbers fileName numbers maxNumbers st =
  match read_loop fileNo numbers maxNumbers 0 st1 with
  | (Ret n, st2) => (Ret n, snd (fileClose fileNo st2))
  | (Raise _, st2) => (Raise (name_error "error"), snd (fileClose fileNo st2))
  end.
Proof.
  intros Hopen Hpos. unfold readNumbers, bind. rewrite Hopen.
  destruct (Z.leb_spec fileNo 0) as [Hle|_]; [lia|].
  unfold try_except, try_finally.
  destruct (read_loop fileNo numbers maxNumbers 0 st1) as [[n|e] st2]; reflexivity.
Qed.

Lemma readNumbers_not_opened fileName numbers maxNumbers st fileNo st1 :
  fileOpen fileName st = (Ret fileNo, st1) ->
  fileNo <= 0 ->
  readNumbers fileName numbers maxNumbers st =
  (Raise (mkExn Exception "File could not be opened!"), st1).
Proof.
  intros Hopen Hle. unfold readNumbers, bind. rewrite Hopen.
  destruct (Z.leb_spec fileNo 0) as [_|Hpos]; [reflexivity|lia].
Qed.

Lemma fileOpen_returns fileName st :
  exists fileNo, fileOpen fileName st = (Ret fileNo, snd (fileOpen fileName st)).
Proof. unfold fileOpen. destruct (fs st fileName); eexists; reflexivity. Qed.

(** ** Closing the handle *)

(** C5: once the open has succeeded, whatever [readNumbers] hands to its
    caller, a count or a failure, the handle is no longer open, and the
    close is the last call of the file API before the caller sees the
    outcome. *)
Theorem readNumbers_closes_handle fileName numbers maxNumbers st fileNo st1 :
  fileOpen fileName st = (Ret fileNo, st1) ->
  0 < fileNo ->
  let st' := snd (readNumbers fileName numbers maxNumbers st) in
  handles st' !! fileNo = None /\ last (trace st') = Some (EvClose fileNo).
Proof.
  intros Hopen Hpos. rewrite (readNumbers_opened _ _ _ _ _ _ Hopen Hpos).
  destruct (read_loop fileNo numbers maxNumbers 0 st1) as [[n|e] st2]; simpl;
    (split; [apply lookup_delete_eq | apply last_snoc]).
Qed.

(** ** Failing to open *)

(** C6: [readNumbers] raises the failure of the open, with the state left
    as the open left it (no test of the loop, no read, no close), exactly
    when the indicator that [fileOpen] yields is at most 0. *)
Theorem readNumbers_open_failure_iff fileName numbers maxNumbers st fileNo st1 :
  fileOpen fileName st = (Ret fileNo, st1) ->
  fileNo <= 0 <->
  readNumbers fileName numbers maxNumbers st =
  (Raise (mkExn Exception "File could not be opened!"), st1).
Proof.
  intros Hopen. split.
  - apply readNumbers_not_opened, Hopen.
  - intros Hraise. destruct (Z.le_gt_cases fileNo 0) as [Hle|Hpos]; [exact Hle|].
    rewrite (readNumbers_opened _ _ _ _ _ _ Hopen Hpos) in Hraise.
    destruct (read_loop fileNo numbers maxNumbers 0 st1) as [[n|e] st2]; discriminate.
Qed.

(** ** Failing to read *)

(** When the loop raises, whatever the error, [readNumbers] raises
    [NameError] for the name [error] in the state the close has left: the
    [raise Exception()] of the handler is not reached. *)
Lemma readNumbers_loop_raises fileName numbers maxNumbers st fileNo st1 e st2 :
  fileOpen fileName st = (Ret fileNo, st1) ->
  0 < fileNo ->
  read_loop fileNo numbers maxNumbers 0 st1 = (Raise e, st2) ->
  readNumbers fileName numbers maxNumbers st =
  (Raise (name_error "error"), snd (fileClose fileNo st2)).
Proof.
  intros Hopen Hpos Hloop.
  rewrite (readNumbers_opened _ _ _ _ _ _ Hopen Hpos), Hloop. reflexivity.
Qed.

(** ** What the loop stores and counts *)

Section ReadLoop.
Variables (fileNo : Z) (numbers : ref) (maxNumbers : Z).

Lemma list_index_in_range (len : nat) (i : Z) :
  0 <= i < Z.of_nat len -> list_index len i = Some (Z.to_nat i).
Proof.
  intros Hi. unfold list_index.
  destruct (Z.leb_spec 0 i); [|lia]. destruct (Z.ltb_spec i (Z.of_nat len)); [|lia].
  reflexivity.
Qed.

Lemma list_index_empty (i : Z) : list_index 0 i = None.
Proof.
  unfold list_index. change (Z.of_nat 0) with 0.
  destruct (Z.leb_spec 0 i), (Z.ltb_spec i 0), (Z.leb_spec (- 0) i); simpl; try reflexivity; lia.
Qed.

(** On a buffer with room for them, the loop stores the integers of the
    file one after the other from position [nNumbers] on, up to the end
    of the file or up to [maxNumbers], and reads nothing beyond. *)
Lemma read_loop_fills (toks : list string) (ints : list Z) :
  parsed toks ints ->
  forall (post : list string) (nNumbers : Z) (st : state) (l : list Z),
    handles st !! fileNo = Some (toks ++ post)%list ->
    heap st !! numbers = Some l ->
    0 <= nNumbers ->
    nNumbers + Z.of_nat (length ints) <= Z.of_nat (length l) ->
    nNumbers + Z.of_nat (length ints) <= maxNumbers ->
    post = [] \/ nNumbers + Z.of_nat (length ints) = maxNumbers ->
    exists st',
      read_loop fileNo numbers maxNumbers nNumbers st
        = (Ret (nNumbers + Z.of_nat (length ints)), st') /\
      handles st' !! fileNo = Some post /\
      heap st' !! numbers
        = Some (take (Z.to_nat nNumbers) l ++ ints
                  ++ drop (Z.to_nat nNumbers + length ints) l)%list /\
      trace st' = (trace st ++ loop_trace fileNo (length ints))%list.
Proof.
  induction 1 as [|tok z toks ints Htok Htoks IH];
    intros post nNumbers st l Hh Hl Hn Hlen Hmax Hpost;
    rewrite read_loop_step; unfold bind, fileEOF; simpl in Hh; rewrite Hh.
  - cbn [length Z.of_nat app loop_trace] in *. rewrite ?Z.add_0_r in *.
    rewrite Nat.add_0_r, take_drop.
    destruct post as [|p post].
    + exists (log (EvEOF fileNo) st). repeat split; assumption.
    + destruct Hpost as [Hnil|Hfull]; [discriminate|].
      destruct (Z.ltb_spec nNumbers maxNumbers); [lia|].
      exists (log (EvEOF fileNo) st). repeat split; assumption.
  - simpl length in *.
    destruct (Z.ltb_spec nNumbers maxNumbers); [|lia]. simpl.
    unfold fileReadInt at 1. simpl. rewrite Hh, Htok. simpl.
    unfold list_setitem at 1. simpl. rewrite Hl.
    rewrite list_index_in_range by lia. simpl.
    set (st3 := set_heap _ _).
    destruct (IH post (nNumbers + 1) st3 (<[Z.to_nat nNumbers := z]> l))
      as (st' & Hrun & Hh' & Hl' & Htr').
    + subst st3. simpl. apply lookup_insert_eq.
    + subst st3. simpl. apply lookup_insert_eq.
    + lia.
    + rewrite length_insert. lia.
    + lia.
    + destruct Hpost as [->|Hfull]; [left; reflexivity|right; lia].
    + exists st'. rewrite Hrun. split; [f_equal; f_equal; lia|].
      split; [exact Hh'|]. split.
      * rewrite Hl'. f_equal.
        replace (Z.to_nat (nNumbers + 1)) with (S (Z.to_nat nNumbers)) by lia.
        rewrite (take_S_r _ _ z) by (apply list_lookup_insert_eq; lia).
        rewrite take_insert_ge by lia.
        rewrite drop_insert_lt by lia.
        rewrite <- app_assoc. simpl.
        replace (S (Z.to_nat nNumbers + length ints))
          with (Z.to_nat nNumbers + S (length ints))%nat by lia.
        reflexivity.
      * rewrite Htr'. subst st3. simpl. rewrite <- !app_assoc. reflexivity.
Qed.

(** The count that the loop yields lies between the count it started
    from and [maxNumbers], unless it started beyond [maxNumbers]. *)
Lemma read_loop_bounds (nNumbers : Z) (st : state) :
  forall n st',
    read_loop fileNo numbers maxNumbers nNumbers st = (Ret n, st') ->
    nNumbers <= n /\ (n <= maxNumbers \/ n = nNumbers).
Proof.
  funelim (read_loop fileNo numbers maxNumbers nNumbers st);
    intros n st' Hrun; try discriminate.
  - inversion Hrun; subst. lia.
  - inversion Hrun; subst. lia.
  - match goal with
    | IH : _ |- _ => destruct (IH n st' Hrun) as [Hlo Hhi]
    end.
    match goal with H : (_ <? _) = true |- _ => pose proof (proj1 (Z.ltb_lt _ _) H) end.
    lia.
Qed.

End ReadLoop.

(** ** readNumbers on a file that opens *)

Lemma fileOpen_text fileName content st :
  fs st fileName = Text content ->
  let fileNo := Z.pos (next_fileNo st) in
  let st1 := snd (fileOpen fileName st) in
  fileOpen fileName st = (Ret fileNo, st1) /\
  handles st1 !! fileNo = Some (tokens content) /\
  heap st1 = heap st /\
  trace st1 = (trace st ++ [EvOpen fileName fileNo])%list.
Proof.
  intros Hfs. unfold fileOpen. rewrite Hfs. simpl.
  repeat split. apply lookup_insert_eq.
Qed.

(** On a list that has room for them, [readNumbers] stores the integers
    of the file from position 0 on and yields their number, up to
    [maxNumbers]; it reads no token beyond them. *)
Lemma readNumbers_presized fileName numbers maxNumbers st content l pre post ints :
  fs st fileName = Text content ->
  tokens content = (pre ++ post)%list ->
  parsed pre ints ->
  heap st !! numbers = Some l ->
  (length ints <= length l)%nat ->
  Z.of_nat (length ints) <= maxNumbers ->
  post = [] \/ Z.of_nat (length ints) = maxNumbers ->
  let fileNo := Z.pos (next_fileNo st) in
  exists st',
    readNumbers fileName numbers maxNumbers st = (Ret (Z.of_nat (length ints)), st') /\
    heap st' !! numbers = Some (ints ++ drop (length ints) l)%list /\
    trace st' = (trace st ++ EvOpen fileName fileNo
                   :: loop_trace fileNo (length ints) ++ [EvClose fileNo])%list.
Proof.
  intros Hfs Htoks Hpre Hl Hlen Hmax Hpost fileNo.
  destruct (fileOpen_text _ _ _ Hfs) as (Hopen & Hh & Heap & Htr).
  fold fileNo in Hopen, Hh, Htr. set (st1 := snd (fileOpen fileName st)) in *.
  rewrite (readNumbers_opened _ _ _ _ _ _ Hopen) by (subst fileNo; lia).
  rewrite Htoks in Hh. rewrite <- Heap in Hl.
  destruct (read_loop_fills fileNo numbers maxNumbers pre ints Hpre post 0 st1 l)
    as (st2 & Hrun & _ & Hl2 & Htr2); try assumption; try lia.
  rewrite Hrun. simpl in *. eexists. split; [reflexivity|]. split.
  - exact Hl2.
  - unfold log, set_handles. simpl. rewrite Htr2, Htr, <- !app_assoc. reflexivity.
Qed.

(** A count that [readNumbers] yields is not negative and not above
    [maxNumbers], unless [maxNumbers] is negative and the count 0. *)
Lemma readNumbers_count_bounds fileName numbers maxNumbers st n st' :
  readNumbers fileName numbers maxNumbers st = (Ret n, st') ->
  0 <= n /\ (n <= maxNumbers \/ n = 0).
Proof.
  intros Hrun. destruct (fileOpen_returns fileName st) as [fileNo Hopen].
  destruct (Z.le_gt_cases fileNo 0) as [Hle|Hpos].
  - rewrite (readNumbers_not_opened _ _ _ _ _ _ Hopen Hle) in Hrun. discriminate.
  - rewrite (readNumbers_opened _ _ _ _ _ _ Hopen Hpos) in Hrun.
    destruct (read_loop fileNo numbers maxNumbers 0 _) as [[m|e] st2] eqn:Hloop;
      [|discriminate].
    injection Hrun as <- _. eapply read_loop_bounds, Hloop.
Qed.


(** On an empty list, whenever the file holds a token and [maxNumbers] is
    positive, [readNumbers] fails: either the first token is no integer,
    or the first item assignment is out of range. *)
Lemma readNumbers_empty_buffer_raises fileName numbers maxNumbers st content tok rest :
  heap st !! numbers = Some [] ->
  fs st fileName = Text content ->
  tokens content = tok :: rest ->
  0 < maxNumbers ->
  fst (readNumbers fileName numbers maxNumbers st) = Raise (name_error "error").
Proof.
  intros Hl Hfs Htoks Hmax.
  destruct (fileOpen_text _ _ _ Hfs) as (Hopen & Hh & Heap & _).
  rewrite (readNumbers_opened _ _ _ _ _ _ Hopen) by lia.
  set (fileNo := Z.pos (next_fileNo st)) in *.
  set (st1 := snd (fileOpen fileName st)) in *.
  rewrite Htoks in Hh. rewrite <- Heap in Hl.
  rewrite read_loop_step. unfold bind, fileEOF. rewrite Hh.
  destruct (Z.ltb_spec 0 maxNumbers); [|lia]. cbn [negb andb].
  unfold fileReadInt. cbn [handles log]. rewrite Hh.
  destruct (parse_int tok) as [number|]; [|reflexivity].
  unfold list_setitem. cbn [heap log set_handles]. rewrite Hl.
  cbn [length]. rewrite list_index_empty. reflexivity.
Qed.

(** ** The main program *)


(** The call of [readNumbers] under its handler: a count goes through,
    and a failure of [readNumbers] becomes [NameError] for the name
    [failure], raised when the clause of the handler is looked at; the
    handler does not run. *)
Lemma read_values_run file_name values st :
  read_values file_name values st =
  match readNumbers file_name values 1000 st with
  | (Ret n, st1) => (Ret n, st1)
  | (Raise _, st1) => (Raise (name_error "failure"), st1)
  end.
Proof.
  unfold read_values, try_except.
  destruct (readNumbers file_name values 1000 st) as [[n|e] st1]; reflexivity.
Qed.



(** The answer of the user to a prompt. *)
Lemma input_answer (prompt line : string) (rest : list string) (st : state) :
  stdin st = line :: rest ->
  input prompt st = (Ret line, set_stdin rest (emit (Prompt prompt) st)).
Proof. intros Hin. unfold input. simpl. rewrite Hin. reflexivity. Qed.

(** C9: [fileNo] is the constant 1000 when [fileNo > 0] is tested, so
    whatever the user answers to the prompt, the run of the main program
    is the run of the guarded block. *)
Theorem main_guard_vacuous (st : state) (file_name : string) (rest : list string) :
  stdin st = file_name :: rest ->
  main st = reporter file_name (set_stdin rest (emit prompt_line st)).
Proof.
  intros Hin. unfold main, bind. rewrite (input_answer _ _ _ _ Hin). reflexivity.
Qed.

(** When [readNumbers] raises, the run leaves the reporting block at the
    clause of the handler: nothing is printed, no sum is computed. *)
Lemma failed_read_raises file_name values st st1 e :
  readNumbers file_name values 1000 st = (Raise e, st1) ->
  (nValues <- read_values file_name values ;; report values nValues) st
  = (Raise (name_error "failure"), st1).
Proof.
  intros Hrun. unfold bind. rewrite read_values_run, Hrun. reflexivity.
Qed.

(** ** Runs of [readNumbers] and of the program *)

(** On a list of five items, [readNumbers] stores the four integers of
    "1 2 3 4" and yields 4. *)
Example readNumbers_presized_1234 :
  let r := readNumbers "numbers.txt" 0%nat 1000 (with_list [0; 0; 0; 0; 0] (sample_state [])) in
  fst r = Ret 4 /\ heap (snd r) !! 0%nat = Some [1; 2; 3; 4; 0].
Proof. vm_compute. split; reflexivity. Qed.

(** On a list that holds 1, 2, 3 and 4, the report prints the sum 10.0 and
    the average 2.5. *)
Example report_1234 :
  let r := report 0%nat 4 (with_list [1; 2; 3; 4] (sample_state [])) in
  fst r = Ret tt /\
  stdout (snd r) = [sum_line (S754_finite false 5629499534213120 (-49));
                    average_line (S754_finite false 5629499534213120 (-51))].
Proof. vm_compute. split; reflexivity. Qed.

Example float_10 : float_of_int 10 = S754_finite false 5629499534213120 (-49).
Proof. reflexivity. Qed.

Example float_2_5 :
  SFdiv 53 1024 (float_of_int 5) (float_of_int 2) = S754_finite false 5629499534213120 (-51).
Proof. reflexivity. Qed.

(** C1: with the empty list that the main program passes and the file
    "1 2 3 4", [readNumbers] does not yield 4, nor any count: the first
    item assignment raises [IndexError] in the loop, the handle is closed
    after that one read, and the list is still empty. *)
Theorem readNumbers_empty_list_no_count :
  let st := with_list [] (sample_state []) in
  let r := readNumbers "numbers.txt" 0%nat 1000 st in
  fst (read_loop 1 0%nat 1000 0 (snd (fileOpen "numbers.txt" st)))
  = Raise (mkExn IndexError "list assignment index out of range") /\
  (forall n, fst r <> Ret n) /\
  heap (snd r) !! 0%nat = Some [] /\
  trace (snd r) = [EvOpen "numbers.txt" 1; EvEOF 1; EvRead 1; EvClose 1].
Proof.
  split; [vm_compute; reflexivity|]. split; [intros n; vm_compute; discriminate|].
  split; vm_compute; reflexivity.
Qed.

(** C4: with the empty list, the file "1 2 3" and [maxNumbers] 2,
    [readNumbers] does not yield 2, nor any count: the first item
    assignment raises [IndexError] in the loop, and the handle is closed
    after that one read. *)
Theorem readNumbers_over_capacity_no_count :
  let st := with_list [] (sample_state []) in
  let r := readNumbers "three.txt" 0%nat 2 st in
  fst (read_loop 1 0%nat 2 0 (snd (fileOpen "three.txt" st)))
  = Raise (mkExn IndexError "list assignment index out of range") /\
  (forall n, fst r <> Ret n) /\
  trace (snd r) = [EvOpen "three.txt" 1; EvEOF 1; EvRead 1; EvClose 1].
Proof.
  split; [vm_compute; reflexivity|]. split; [intros n; vm_compute; discriminate|].
  vm_compute. reflexivity.
Qed.

(** C2: for a name that cannot be opened, the failure of [readNumbers] is
    not printed: the run leaves the program with [NameError] at the
    clause of the handler, and the prompt is all its output. *)
Theorem main_unopenable_prints_no_failure :
  let r := main (sample_state ["missing.txt"]) in
  fst (readNumbers "missing.txt" 0%nat 1000 (with_list [] (sample_state [])))
  = Raise (mkExn Exception "File could not be opened!") /\
  fst r = Raise (name_error "failure") /\
  stdout (snd r) = [prompt_line] /\
  ~ In (failure_line (mkExn Exception "File could not be opened!")) (stdout (snd r)).
Proof.
  split; [vm_compute; reflexivity|]. split; [vm_compute; reflexivity|].
  split; [vm_compute; reflexivity|].
  vm_compute. intros [H|[]]. discriminate H.
Qed.

(** C7: for the file "1 x 3" and a list of three items, the read of "x"
    raises [ValueError] in the loop and the handle is closed, but what
    reaches the caller is [NameError] for the name [error], not the
    [Exception()] of the handler. *)
Theorem readNumbers_read_error_not_generic :
  let st := with_list [0; 0; 0] (sample_state []) in
  let r := readNumbers "broken.txt" 0%nat 1000 st in
  fst (read_loop 1 0%nat 1000 0 (snd (fileOpen "broken.txt" st)))
  = Raise (mkExn ValueError "invalid literal for int: x") /\
  fst r = Raise (name_error "error") /\
  fst r <> Raise (mkExn Exception "") /\
  handles (snd r) !! 1 = None /\
  last (trace (snd r)) = Some (EvClose 1).
Proof.
  split; [vm_compute; reflexivity|]. split; [vm_compute; reflexivity|].
  split; [vm_compute; discriminate|]. split; vm_compute; reflexivity.
Qed.

(** C8: for the file "1 2 3 4", the program prints neither the sum 10.0
    nor an average: [readNumbers] fails at its first item assignment, and
    the run leaves the program with [NameError] at the clause of the
    handler, the prompt being all its output. *)
Theorem main_1234_prints_no_sum :
  let r := main (sample_state ["numbers.txt"]) in
  fst r = Raise (name_error "failure") /\
  stdout (snd r) = [prompt_line].
Proof. vm_compute. split; reflexivity. Qed.

(** C10: when [readNumbers] raises, here for a name that cannot be
    opened, no summation follows and no sum is printed: the reporting
    block is left with [NameError] at the clause of the handler, and
    nothing has been printed. *)
Theorem failed_read_prints_no_sum :
  let st := with_list [] (sample_state []) in
  let r := (nValues <- read_values "missing.txt" 0%nat ;; report 0%nat nValues) st in
  fst (readNumbers "missing.txt" 0%nat 1000 st)
  = Raise (mkExn Exception "File could not be opened!") /\
  fst r = Raise (name_error "failure") /\
  stdout (snd r) = [].
Proof. vm_compute. repeat split; reflexivity. Qed.

(** ** The theorems at sample inputs *)

Lemma readNumbers_closes_handle_witness :
  let st := with_list [] (sample_state []) in
  let st' := snd (readNumbers "numbers.txt" 0%nat 1000 st) in
  handles st' !! 1 = None /\ last (trace st') = Some (EvClose 1).
Proof.
  apply (readNumbers_closes_handle "numbers.txt" 0%nat 1000
           (with_list [] (sample_state [])) 1
           (snd (fileOpen "numbers.txt" (with_list [] (sample_state []))))).
  - reflexivity.
  - lia.
Defined.

Lemma readNumbers_open_failure_iff_witness :
  let st := with_list [] (sample_state []) in
  let st1 := snd (fileOpen "missing.txt" st) in
  fileOpen "missing.txt" st = (Ret (-1), st1) /\
  (-1 <= 0 <->
   readNumbers "missing.txt" 0%nat 1000 st
   = (Raise (mkExn Exception "File could not be opened!"), st1)).
Proof.
  split; [reflexivity|].
  apply (readNumbers_open_failure_iff "missing.txt" 0%nat 1000
           (with_list [] (sample_state [])) (-1)).
  reflexivity.
Defined.


Lemma main_guard_vacuous_witness :
  main (sample_state ["empty.txt"])
  = reporter "empty.txt" (set_stdin [] (emit prompt_line (sample_state ["empty.txt"]))).
Proof.
  apply (main_guard_vacuous (sample_state ["empty.txt"]) "empty.txt" []).
  reflexivity.
Defined.


(** * Further properties of [readNumbers] *)

Section ReadLoopMore.
Variables (fileNo : Z) (numbers : ref) (maxNumbers : Z).

(** What a successful item assignment has done. *)
Lemma list_setitem_ret (i v : Z) (st st' : state) (u : unit) :
  list_setitem numbers i v st = (Ret u, st') ->
  exists l k,
    heap st !! numbers = Some l /\ list_index (length l) i = Some k /\
    st' = set_heap <[numbers := <[k := v]> l]> st.
Proof.
  unfold list_setitem. destruct (heap st !! numbers) as [l|]; [|discriminate].
  destruct (list_index (length l) i) as [k|] eqn:Hk; [|discriminate].
  intros H. injection H as _ <-. exists l, k. repeat split; try assumption; reflexivity.
Qed.

Lemma list_index_some (len : nat) (i : Z) (k : nat) :
  list_index len i = Some k -> 0 <= i -> i = Z.of_nat k /\ (k < len)%nat.
Proof.
  unfold list_index. intros H Hi.
  destruct (Z.leb_spec 0 i); [|lia].
  destruct (Z.ltb_spec i (Z.of_nat len)); simpl in H.
  - injection H as <-. lia.
  - destruct (Z.leb_spec (- Z.of_nat len) i), (Z.ltb_spec i 0); simpl in H;
      try discriminate; lia.
Qed.

(** The loop stores the integers it meets and goes on from where they
    end: a run of the loop over tokens [toks ++ post] is a run over
    [post], once the values of [toks] are stored. *)
Lemma read_loop_prefix (toks : list string) (ints : list Z) :
  parsed toks ints ->
  forall (post : list string) (nNumbers : Z) (st : state) (l : list Z),
    handles st !! fileNo = Some (toks ++ post)%list ->
    heap st !! numbers = Some l ->
    0 <= nNumbers ->
    nNumbers + Z.of_nat (length ints) <= Z.of_nat (length l) ->
    nNumbers + Z.of_nat (length ints) <= maxNumbers ->
    exists st1,
      read_loop fileNo numbers maxNumbers nNumbers st
      = read_loop fileNo numbers maxNumbers (nNumbers + Z.of_nat (length ints)) st1 /\
      handles st1 !! fileNo = Some post /\
      heap st1 !! numbers
      = Some (take (Z.to_nat nNumbers) l ++ ints
                ++ drop (Z.to_nat nNumbers + length ints) l)%list.
Proof.
  induction 1 as [|tok z toks ints Htok Htoks IH];
    intros post nNumbers st l Hh Hl Hn Hlen Hmax.
  - exists st. cbn [length Z.of_nat app] in *. rewrite Z.add_0_r, Nat.add_0_r, take_drop.
    repeat split; assumption.
  - simpl length in *. simpl in Hh.
    rewrite read_loop_step. unfold bind, fileEOF. rewrite Hh.
    destruct (Z.ltb_spec nNumbers maxNumbers); [|lia]. simpl.
    unfold fileReadInt at 1. simpl. rewrite Hh, Htok. simpl.
    unfold list_setitem at 1. simpl. rewrite Hl.
    rewrite list_index_in_range by lia. simpl.
    set (st3 := set_heap _ _).
    destruct (IH post (nNumbers + 1) st3 (<[Z.to_nat nNumbers := z]> l))
      as (st1 & Hrun & Hh1 & Hl1).
    + subst st3. simpl. apply lookup_insert_eq.
    + subst st3. simpl. apply lookup_insert_eq.
    + lia.
    + rewrite length_insert. lia.
    + lia.
    + exists st1. split; [|split; [exact Hh1|]].
      * rewrite Hrun. f_equal. lia.
      * rewrite Hl1. f_equal.
        replace (Z.to_nat (nNumbers + 1)) with (S (Z.to_nat nNumbers)) by lia.
        rewrite (take_S_r _ _ z) by (apply list_lookup_insert_eq; lia).
        rewrite take_insert_ge by lia.
        rewrite drop_insert_lt by lia.
        rewrite <- app_assoc. simpl.
        replace (S (Z.to_nat nNumbers + length ints))
          with (Z.to_nat nNumbers + S (length ints))%nat by lia.
        reflexivity.
Qed.

(** Where the loop fails: at a token that is no integer, or at a token
    for which the list has no item left. *)
Lemma read_loop_fails_at (tok : string) (rest : list string) (nNumbers : Z)
    (st : state) (l : list Z) :
  handles st !! fileNo = Some (tok :: rest) ->
  heap st !! numbers = Some l ->
  0 <= nNumbers < maxNumbers ->
  parse_int tok = None \/ nNumbers = Z.of_nat (length l) ->
  exists e st',
    read_loop fileNo numbers maxNumbers nNumbers st = (Raise e, st') /\
    heap st' = heap st.
Proof.
  intros Hh Hl Hn Hwhy.
  rewrite read_loop_step. unfold bind, fileEOF. rewrite Hh.
  destruct (Z.ltb_spec nNumbers maxNumbers); [|lia]. simpl.
  unfold fileReadInt. simpl. rewrite Hh.
  destruct (parse_int tok) as [number|] eqn:Htok.
  - destruct Hwhy as [|Hfull]; [discriminate|].
    unfold list_setitem. simpl. rewrite Hl.
    assert (list_index (length l) nNumbers = None) as ->.
    { unfold list_index.
      destruct (Z.leb_spec 0 nNumbers), (Z.ltb_spec nNumbers (Z.of_nat (length l))),
        (Z.leb_spec (- Z.of_nat (length l)) nNumbers), (Z.ltb_spec nNumbers 0);
        simpl; try reflexivity; lia. }
    eexists _, _. split; reflexivity.
  - eexists _, _. split; reflexivity.
Qed.

(** The count that the loop yields is at most the length of the list,
    unless no number is stored; and the list keeps its length. *)
Lemma read_loop_within_list (nNumbers : Z) (st : state) :
  forall (l : list Z) (n : Z) (st' : state),
    heap st !! numbers = Some l ->
    0 <= nNumbers ->
    read_loop fileNo numbers maxNumbers nNumbers st = (Ret n, st') ->
    n = nNumbers \/ n <= Z.of_nat (length l).
Proof.
  funelim (read_loop fileNo numbers maxNumbers nNumbers st);
    intros l n st' Hl Hn Hrun; try discriminate.
  - left. congruence.
  - left. congruence.
  - right.
    match goal with H : fileEOF _ _ = _ |- _ =>
      pose proof (fileEOF_heap fileNo st) as Heap1; rewrite H in Heap1; simpl in Heap1 end.
    match goal with H : fileReadInt _ _ = _ |- _ =>
      pose proof (fileReadInt_heap fileNo st1) as Heap2; rewrite H in Heap2; simpl in Heap2 end.
    match goal with H : list_setitem _ _ _ _ = _ |- _ =>
      destruct (list_setitem_ret _ _ _ _ _ H) as (l2 & k & Hl2 & Hk & ->) end.
    rewrite Heap2, Heap1, Hl in Hl2. injection Hl2 as <-.
    destruct (list_index_some _ _ _ Hk Hn) as [-> Hroom].
    match goal with
    | IH : _ |- _ =>
        destruct (IH (<[k := number]> l) n st') as [Hsame|Hle];
          [simpl; apply lookup_insert_eq | lia | exact Hrun | |]
    end.
    + lia.
    + rewrite length_insert in Hle. exact Hle.
Qed.
End ReadLoopMore.

(** ** What the loop preserves *)

Section ReadLoopFrame.
Variables (fileNo : Z) (numbers : ref) (maxNumbers : Z).
Variable R : state -> state -> Prop.
Hypothesis R_trans : forall a b c, R a b -> R b c -> R a c.
Hypothesis R_eof : forall st, R st (snd (fileEOF fileNo st)).
Hypothesis R_read : forall st, R st (snd (fileReadInt fileNo st)).
Hypothesis R_set : forall i v st, R st (snd (list_setitem numbers i v st)).

(** A relation between states that the test, the read and the item
    assignment keep is kept by the whole loop, however it ends. *)
Lemma read_loop_preserves (nNumbers : Z) (st : state) :
  R st (snd (read_loop fileNo numbers maxNumbers nNumbers st)).
Proof.
  funelim (read_loop fileNo numbers maxNumbers nNumbers st).
  all: repeat match goal with
       | H : fileEOF _ ?s = _ |- _ =>
           let F := fresh "F" in
           pose proof (R_eof s) as F; rewrite H in F; simpl in F; clear H
       | H : fileReadInt _ ?s = _ |- _ =>
           let F := fresh "F" in
           pose proof (R_read s) as F; rewrite H in F; simpl in F; clear H
       | H : list_setitem _ ?i ?v ?s = _ |- _ =>
           let F := fresh "F" in
           pose proof (R_set i v s) as F; rewrite H in F; simpl in F; clear H
       end.
  all: simpl.
  all: repeat first [eassumption | eapply R_trans; [eassumption|]].
Qed.
End ReadLoopFrame.

Lemma untouched_refl fileNo numbers st : untouched fileNo numbers st st.
Proof. repeat split. Qed.

Lemma untouched_trans fileNo numbers a b c :
  untouched fileNo numbers a b -> untouched fileNo numbers b c ->
  untouched fileNo numbers a c.
Proof.
  intros (Hfs & Hin & Hout & Hheap & Hh) (Hfs' & Hin' & Hout' & Hheap' & Hh').
  repeat split; try congruence.
  - intros r Hr. rewrite Hheap', Hheap by exact Hr. reflexivity.
  - intros k Hk. rewrite Hh', Hh by exact Hk. reflexivity.
Qed.

Lemma fileEOF_untouched fileNo numbers st :
  untouched fileNo numbers st (snd (fileEOF fileNo st)).
Proof.
  unfold fileEOF. destruct (handles st !! fileNo) as [[|]|]; repeat split.
Qed.

Lemma fileReadInt_untouched fileNo numbers st :
  untouched fileNo numbers st (snd (fileReadInt fileNo st)).
Proof.
  unfold fileReadInt. destruct (handles st !! fileNo) as [[|tok rest]|];
    [repeat split| |repeat split].
  destruct (parse_int tok); repeat split; simpl;
    intros k Hk; apply lookup_insert_ne; congruence.
Qed.

Lemma list_setitem_untouched fileNo numbers i v st :
  untouched fileNo numbers st (snd (list_setitem numbers i v st)).
Proof.
  unfold list_setitem. destruct (heap st !! numbers) as [l|]; [|repeat split].
  destruct (list_index (length l) i); repeat split; simpl.
  intros r Hr. apply lookup_insert_ne. congruence.
Qed.

Lemma read_loop_untouched fileNo numbers maxNumbers nNumbers st :
  untouched fileNo numbers st (snd (read_loop fileNo numbers maxNumbers nNumbers st)).
Proof.
  apply (read_loop_preserves fileNo numbers maxNumbers (untouched fileNo numbers)).
  - apply untouched_trans.
  - apply fileEOF_untouched.
  - apply fileReadInt_untouched.
  - apply list_setitem_untouched.
Qed.

Lemma fileEOF_trace fileNo st :
  trace (snd (fileEOF fileNo st)) = (trace st ++ [EvEOF fileNo])%list.
Proof. unfold fileEOF. destruct (handles st !! fileNo) as [[|]|]; reflexivity. Qed.

Lemma fileReadInt_trace fileNo st :
  trace (snd (fileReadInt fileNo st)) = (trace st ++ [EvRead fileNo])%list.
Proof.
  unfold fileReadInt. destruct (handles st !! fileNo) as [[|tok rest]|]; try reflexivity.
  destruct (parse_int tok); reflexivity.
Qed.

Lemma list_setitem_trace numbers i v st :
  trace (snd (list_setitem numbers i v st)) = trace st.
Proof.
  unfold list_setitem. destruct (heap st !! numbers) as [l|]; [|reflexivity].
  destruct (list_index (length l) i); reflexivity.
Qed.

(** The reads of the loop: each iteration tests and reads once, and there
    are at most [maxNumbers - nNumbers] iterations, however the loop
    ends. *)
Lemma read_loop_reads fileNo numbers maxNumbers nNumbers st :
  exists evs,
    trace (snd (read_loop fileNo numbers maxNumbers nNumbers st))
      = (trace st ++ evs)%list /\
    (count_reads evs <= Z.to_nat (maxNumbers - nNumbers))%nat.
Proof.
  funelim (read_loop fileNo numbers maxNumbers nNumbers st).
  all: repeat match goal with
       | H : fileEOF ?h ?s = _ |- _ =>
           let F := fresh "F" in
           pose proof (fileEOF_trace h s) as F; rewrite H in F; simpl in F; clear H
       | H : fileReadInt ?h ?s = _ |- _ =>
           let F := fresh "F" in
           pose proof (fileReadInt_trace h s) as F; rewrite H in F; simpl in F; clear H
       | H : list_setitem ?r ?i ?v ?s = _ |- _ =>
           let F := fresh "F" in
           pose proof (list_setitem_trace r i v s) as F; rewrite H in F; simpl in F; clear H
       end.
  all: try match goal with
       | H : (_ <? _) = true |- _ => pose proof (proj1 (Z.ltb_lt _ _) H)
       end.
  all: simpl.
  all: try match goal with IH : exists _, _ |- _ => destruct IH as (evs & -> & Hcount) end.
  5: exists (EvEOF fileNo :: EvRead fileNo :: evs).
  1-3: exists [EvEOF fileNo].
  4: exists [EvEOF fileNo; EvRead fileNo].
  6: exists [EvEOF fileNo; EvRead fileNo].
  all: split; [|simpl; lia].
  all: repeat match goal with H : trace _ = _ |- _ => rewrite H; clear H end.
  all: rewrite <- ?app_assoc; reflexivity.
Qed.

(** ** [readNumbers] on lists of every length *)

Lemma count_reads_app (evs evs' : list event) :
  count_reads (evs ++ evs') = (count_reads evs + count_reads evs')%nat.
Proof.
  induction evs as [|ev evs IH]; [reflexivity|].
  destruct ev; simpl; rewrite IH; reflexivity.
Qed.

Lemma count_reads_loop_trace (fileNo : Z) (n : nat) :
  count_reads (loop_trace fileNo n) = n.
Proof. induction n as [|n IH]; simpl; [reflexivity|]. rewrite IH. reflexivity. Qed.

(** X1: when the file holds only integers, no more of them than
    [maxNumbers] and than the list has items, [readNumbers] yields their
    number, the first items of the list are the integers of the file in
    their order, and the items behind them are as they were. *)
Theorem readNumbers_reads_whole_file fileName numbers maxNumbers st content l ints :
  fs st fileName = Text content ->
  parsed (tokens content) ints ->
  heap st !! numbers = Some l ->
  (length ints <= length l)%nat ->
  Z.of_nat (length ints) <= maxNumbers ->
  exists st',
    readNumbers fileName numbers maxNumbers st = (Ret (Z.of_nat (length ints)), st') /\
    heap st' !! numbers = Some (ints ++ drop (length ints) l)%list.
Proof.
  intros Hfs Hints Hl Hlen Hmax.
  destruct (readNumbers_presized fileName numbers maxNumbers st content l
              (tokens content) [] ints) as (st' & Hrun & Hl' & _);
    try assumption.
  - rewrite app_nil_r. reflexivity.
  - left. reflexivity.
  - exists st'. split; assumption.
Qed.

Lemma readNumbers_reads_whole_file_witness :
  let st := with_list [7; 7; 7; 7; 7] (sample_state []) in
  fs st "numbers.txt" = Text "1 2 3 4" /\
  parsed (tokens "1 2 3 4") [1; 2; 3; 4] /\
  exists st',
    readNumbers "numbers.txt" 0%nat 1000 st = (Ret 4, st') /\
    heap st' !! 0%nat = Some [1; 2; 3; 4; 7].
Proof.
  assert (Hints : parsed (tokens "1 2 3 4") [1; 2; 3; 4]) by (repeat constructor).
  split; [reflexivity|]. split; [exact Hints|].
  apply (readNumbers_reads_whole_file "numbers.txt" 0%nat 1000
           (with_list [7; 7; 7; 7; 7] (sample_state [])) "1 2 3 4"
           [7; 7; 7; 7; 7] [1; 2; 3; 4]).
  - reflexivity.
  - exact Hints.
  - reflexivity.
  - simpl. lia.
  - simpl. lia.
Defined.

(** X2: when the file begins with [maxNumbers] integers and the list has
    as many items, [readNumbers] yields [maxNumbers], stores these
    integers, and makes exactly [maxNumbers] reads: what follows them in
    the file is not read. *)
Theorem readNumbers_stops_at_maxNumbers fileName numbers maxNumbers st content l
    pre post ints :
  fs st fileName = Text content ->
  tokens content = (pre ++ post)%list ->
  parsed pre ints ->
  heap st !! numbers = Some l ->
  (length ints <= length l)%nat ->
  Z.of_nat (length ints) = maxNumbers ->
  exists st' evs,
    readNumbers fileName numbers maxNumbers st = (Ret maxNumbers, st') /\
    heap st' !! numbers = Some (ints ++ drop (length ints) l)%list /\
    trace st' = (trace st ++ evs)%list /\
    count_reads evs = Z.to_nat maxNumbers.
Proof.
  intros Hfs Htoks Hpre Hl Hlen Hmax.
  destruct (readNumbers_presized fileName numbers maxNumbers st content l
              pre post ints) as (st' & Hrun & Hl' & Htr);
    try assumption; [lia|right; exact Hmax|].
  exists st'. eexists.
  split; [rewrite Hrun, Hmax; reflexivity|]. split; [exact Hl'|]. split; [exact Htr|].
  simpl. rewrite count_reads_app, count_reads_loop_trace. simpl. lia.
Qed.

Lemma readNumbers_stops_at_maxNumbers_witness :
  let st := with_list [7; 7; 7] (sample_state []) in
  tokens "1 2 3 4" = (["1"; "2"] ++ ["3"; "4"])%list /\
  parsed ["1"; "2"] [1; 2] /\
  exists st' evs,
    readNumbers "numbers.txt" 0%nat 2 st = (Ret 2, st') /\
    heap st' !! 0%nat = Some [1; 2; 7] /\
    trace st' = (trace st ++ evs)%list /\
    count_reads evs = 2%nat.
Proof.
  assert (Hints : parsed ["1"; "2"] [1; 2]) by (repeat constructor).
  split; [reflexivity|]. split; [exact Hints|].
  apply (readNumbers_stops_at_maxNumbers "numbers.txt" 0%nat 2
           (with_list [7; 7; 7] (sample_state [])) "1 2 3 4"
           [7; 7; 7] ["1"; "2"] ["3"; "4"] [1; 2]).
  - reflexivity.
  - reflexivity.
  - exact Hints.
  - reflexivity.
  - simpl. lia.
  - reflexivity.
Defined.

(** The list object keeps its length through the loop, however the loop
    ends. *)
Lemma read_loop_keeps_length fileNo numbers maxNumbers nNumbers st l :
  heap st !! numbers = Some l ->
  exists l',
    heap (snd (read_loop fileNo numbers maxNumbers nNumbers st)) !! numbers = Some l' /\
    length l' = length l.
Proof.
  revert l.
  apply (read_loop_preserves fileNo numbers maxNumbers
           (fun a b => forall l, heap a !! numbers = Some l ->
                                 exists l', heap b !! numbers = Some l' /\
                                            length l' = length l)).
  - intros a b c Hab Hbc l Hl.
    destruct (Hab l Hl) as (l1 & Hl1 & Hlen1).
    destruct (Hbc l1 Hl1) as (l2 & Hl2 & Hlen2).
    exists l2. split; [exact Hl2|congruence].
  - intros s l Hl. exists l. rewrite fileEOF_heap. split; [exact Hl|reflexivity].
  - intros s l Hl. exists l. rewrite fileReadInt_heap. split; [exact Hl|reflexivity].
  - intros i v s l Hl. unfold list_setitem. rewrite Hl.
    destruct (list_index (length l) i) as [k|]; simpl.
    + exists (<[k := v]> l). split; [apply lookup_insert_eq|apply length_insert].
    + exists l. split; [exact Hl|reflexivity].
Qed.

(** X3: a count that [readNumbers] yields is never negative, never above
    [maxNumbers] unless it is 0, and never above the length of the list
    it was given; and whatever the outcome, the list has the length it
    had: [readNumbers] never makes a list grow. *)
Theorem readNumbers_count_within_list fileName numbers maxNumbers st l :
  heap st !! numbers = Some l ->
  let r := readNumbers fileName numbers maxNumbers st in
  (exists l', heap (snd r) !! numbers = Some l' /\ length l' = length l) /\
  (forall n, fst r = Ret n ->
             0 <= n <= Z.max 0 maxNumbers /\ n <= Z.of_nat (length l)).
Proof.
  intros Hl r. subst r.
  destruct (fileOpen_returns fileName st) as [fileNo Hopen].
  pose proof (fileOpen_heap fileName st) as Heap.
  set (st1 := snd (fileOpen fileName st)) in *.
  destruct (Z.le_gt_cases fileNo 0) as [Hle|Hpos].
  - rewrite (readNumbers_not_opened _ _ _ _ _ _ Hopen Hle). simpl. split.
    + exists l. rewrite Heap. split; [exact Hl|reflexivity].
    + intros n Hn. discriminate.
  - rewrite (readNumbers_opened _ _ _ _ _ _ Hopen Hpos).
    rewrite <- Heap in Hl.
    destruct (read_loop_keeps_length fileNo numbers maxNumbers 0 st1 l Hl)
      as (l' & Hl' & Hlen).
    destruct (read_loop fileNo numbers maxNumbers 0 st1) as [[m|e] st2] eqn:Hloop;
      simpl in *.
    + split; [exists l'; split; assumption|].
      intros n [= <-].
      destruct (read_loop_bounds _ _ _ _ _ _ _ Hloop) as [Hlo Hhi].
      destruct (read_loop_within_list _ _ _ _ _ _ _ _ Hl (Z.le_refl 0) Hloop); lia.
    + split; [exists l'; split; assumption|]. intros n Hn. discriminate.
Qed.

Lemma readNumbers_count_within_list_witness :
  let st := with_list [7; 7; 7; 7; 7] (sample_state []) in
  let r := readNumbers "numbers.txt" 0%nat 1000 st in
  heap st !! 0%nat = Some [7; 7; 7; 7; 7] /\
  (exists l', heap (snd r) !! 0%nat = Some l' /\ length l' = 5%nat) /\
  (forall n, fst r = Ret n -> 0 <= n <= Z.max 0 1000 /\ n <= 5).
Proof.
  split; [reflexivity|].
  apply (readNumbers_count_within_list "numbers.txt" 0%nat 1000
           (with_list [7; 7; 7; 7; 7] (sample_state [])) [7; 7; 7; 7; 7]).
  reflexivity.
Defined.

(** X4: when the file holds no token, or when [maxNumbers] is not
    positive, [readNumbers] yields 0 for every list: it opens the file,
    tests its end once, closes it, reads nothing and leaves every list as
    it was. *)
Theorem readNumbers_nothing_to_read fileName numbers maxNumbers st content :
  fs st fileName = Text content ->
  tokens content = [] \/ maxNumbers <= 0 ->
  let fileNo := Z.pos (next_fileNo st) in
  exists st',
    readNumbers fileName numbers maxNumbers st = (Ret 0, st') /\
    heap st' = heap st /\
    trace st' = (trace st ++ [EvOpen fileName fileNo; EvEOF fileNo; EvClose fileNo])%list.
Proof.
  intros Hfs Hwhy fileNo.
  destruct (fileOpen_text _ _ _ Hfs) as (Hopen & Hh & Heap & Htr).
  fold fileNo in Hopen, Hh, Htr. set (st1 := snd (fileOpen fileName st)) in *.
  rewrite (readNumbers_opened _ _ _ _ _ _ Hopen) by (subst fileNo; lia).
  rewrite read_loop_step. unfold bind, fileEOF. rewrite Hh.
  assert (Hstop : forall eof : bool,
             (eof = false -> maxNumbers <= 0) ->
             negb eof && (0 <? maxNumbers) = false).
  { intros [|] Heof; [reflexivity|]. simpl.
    destruct (Z.ltb_spec 0 maxNumbers); [specialize (Heof eq_refl); lia|reflexivity]. }
  destruct (tokens content) as [|tok rest] eqn:Htoks.
  - rewrite Hstop by discriminate. simpl. eexists. split; [reflexivity|].
    split; [exact Heap|]. simpl. rewrite Htr, <- !app_assoc. reflexivity.
  - destruct Hwhy as [Hnil|Hmax]; [discriminate|].
    rewrite Hstop by (intros _; exact Hmax). simpl. eexists. split; [reflexivity|].
    split; [exact Heap|]. simpl. rewrite Htr, <- !app_assoc. reflexivity.
Qed.

Lemma readNumbers_nothing_to_read_witness :
  let st := with_list [] (sample_state []) in
  fs st "numbers.txt" = Text "1 2 3 4" /\
  (tokens "1 2 3 4" = [] \/ -5 <= 0) /\
  exists st',
    readNumbers "numbers.txt" 0%nat (-5) st = (Ret 0, st') /\
    heap st' = heap st /\
    trace st' = (trace st ++ [EvOpen "numbers.txt" 1; EvEOF 1; EvClose 1])%list.
Proof.
  split; [reflexivity|]. split; [right; lia|].
  apply (readNumbers_nothing_to_read "numbers.txt" 0%nat (-5)
           (with_list [] (sample_state [])) "1 2 3 4").
  - reflexivity.
  - right. lia.
Defined.

(** Where [readNumbers] fails after storing the values of [pre]: what
    the caller receives is [NameError] for the name [error] of the except
    clause, the values stored so far stay in the list, and the handle is
    closed. *)
Lemma readNumbers_fails_at fileName numbers maxNumbers st content l pre tok rest ints :
  fs st fileName = Text content ->
  tokens content = (pre ++ tok :: rest)%list ->
  parsed pre ints ->
  heap st !! numbers = Some l ->
  (length ints <= length l)%nat ->
  Z.of_nat (length ints) < maxNumbers ->
  parse_int tok = None \/ length ints = length l ->
  exists st',
    readNumbers fileName numbers maxNumbers st = (Raise (name_error "error"), st') /\
    heap st' !! numbers = Some (ints ++ drop (length ints) l)%list /\
    handles st' !! Z.pos (next_fileNo st) = None.
Proof.
  intros Hfs Htoks Hpre Hl Hlen Hmax Hwhy.
  destruct (fileOpen_text _ _ _ Hfs) as (Hopen & Hh & Heap & _).
  set (fileNo := Z.pos (next_fileNo st)) in *.
  set (st1 := snd (fileOpen fileName st)) in *.
  rewrite (readNumbers_opened _ _ _ _ _ _ Hopen) by (subst fileNo; lia).
  rewrite Htoks in Hh. rewrite <- Heap in Hl.
  destruct (read_loop_prefix fileNo numbers maxNumbers pre ints Hpre
              (tok :: rest) 0 st1 l) as (st2 & Hrun & Hh2 & Hl2);
    try assumption; try lia.
  rewrite Z.add_0_l in Hrun. change (Z.to_nat 0) with 0%nat in Hl2.
  rewrite take_0 in Hl2. cbn [app Nat.add] in Hl2. rewrite Hrun.
  destruct (read_loop_fails_at fileNo numbers maxNumbers tok rest
              (Z.of_nat (length ints)) st2 (ints ++ drop (length ints) l))
    as (e & st3 & Hfail & Heap3); try assumption; try lia.
  - destruct Hwhy as [Hbad|Hfull]; [left; exact Hbad|right].
    rewrite length_app, length_drop. lia.
  - rewrite Hfail. eexists. split; [reflexivity|]. simpl. split.
    + rewrite Heap3. exact Hl2.
    + apply lookup_delete_eq.
Qed.

(** X5: a list too short for the file makes [readNumbers] fail: when the
    file holds more integers than the list has items, and [maxNumbers]
    allows one more, the call raises once every item of the list is
    overwritten, and the file is closed; the exception the caller
    receives is the [NameError] of the except clause. *)
Theorem readNumbers_short_list_raises fileName numbers maxNumbers st content l
    pre tok rest ints :
  fs st fileName = Text content ->
  tokens content = (pre ++ tok :: rest)%list ->
  parsed pre ints ->
  heap st !! numbers = Some l ->
  length ints = length l ->
  Z.of_nat (length l) < maxNumbers ->
  exists st',
    readNumbers fileName numbers maxNumbers st = (Raise (name_error "error"), st') /\
    heap st' !! numbers = Some ints /\
    handles st' !! Z.pos (next_fileNo st) = None.
Proof.
  intros Hfs Htoks Hpre Hl Hfull Hmax.
  destruct (readNumbers_fails_at fileName numbers maxNumbers st content l
              pre tok rest ints) as (st' & Hrun & Hl' & Hclosed);
    try assumption; try lia.
  exists st'. split; [exact Hrun|]. split; [|exact Hclosed].
  rewrite Hl', Hfull, drop_all, app_nil_r. reflexivity.
Qed.

Lemma readNumbers_short_list_raises_witness :
  let st := with_list [7; 7] (sample_state []) in
  tokens "1 2 3 4" = (["1"; "2"] ++ "3" :: ["4"])%list /\
  parsed ["1"; "2"] [1; 2] /\
  exists st',
    readNumbers "numbers.txt" 0%nat 1000 st = (Raise (name_error "error"), st') /\
    heap st' !! 0%nat = Some [1; 2] /\
    handles st' !! 1 = None.
Proof.
  assert (Hints : parsed ["1"; "2"] [1; 2]) by (repeat constructor).
  split; [reflexivity|]. split; [exact Hints|].
  apply (readNumbers_short_list_raises "numbers.txt" 0%nat 1000
           (with_list [7; 7] (sample_state [])) "1 2 3 4" [7; 7]
           ["1"; "2"] "3" ["4"] [1; 2]).
  - reflexivity.
  - reflexivity.
  - exact Hints.
  - reflexivity.
  - reflexivity.
  - simpl. lia.
Defined.

(** X6: a token that is no integer makes [readNumbers] fail, and the
    caller's list is not restored: the integers read before that token
    have overwritten its first items.  The handle is closed, and the
    exception the caller receives is the [NameError] of the except
    clause. *)
Theorem readNumbers_bad_token_raises fileName numbers maxNumbers st content l
    pre bad rest ints :
  fs st fileName = Text content ->
  tokens content = (pre ++ bad :: rest)%list ->
  parsed pre ints ->
  parse_int bad = None ->
  heap st !! numbers = Some l ->
  (length ints <= length l)%nat ->
  Z.of_nat (length ints) < maxNumbers ->
  exists st',
    readNumbers fileName numbers maxNumbers st = (Raise (name_error "error"), st') /\
    heap st' !! numbers = Some (ints ++ drop (length ints) l)%list /\
    handles st' !! Z.pos (next_fileNo st) = None.
Proof.
  intros Hfs Htoks Hpre Hbad Hl Hlen Hmax.
  apply (readNumbers_fails_at fileName numbers maxNumbers st content l
           pre bad rest ints); try assumption.
  left. exact Hbad.
Qed.

Lemma readNumbers_bad_token_raises_witness :
  let st := with_list [7; 7; 7] (sample_state []) in
  tokens "1 x 3" = (["1"] ++ "x" :: ["3"])%list /\
  parsed ["1"] [1] /\
  parse_int "x" = None /\
  exists st',
    readNumbers "broken.txt" 0%nat 1000 st = (Raise (name_error "error"), st') /\
    heap st' !! 0%nat = Some [1; 7; 7] /\
    handles st' !! 1 = None.
Proof.
  assert (Hints : parsed ["1"] [1]) by (repeat constructor).
  split; [reflexivity|]. split; [exact Hints|]. split; [reflexivity|].
  apply (readNumbers_bad_token_raises "broken.txt" 0%nat 1000
           (with_list [7; 7; 7] (sample_state [])) "1 x 3" [7; 7; 7]
           ["1"] "x" ["3"] [1]).
  - reflexivity.
  - reflexivity.
  - exact Hints.
  - reflexivity.
  - reflexivity.
  - simpl. lia.
  - simpl. lia.
Defined.

(** X7: whatever the file, the list and the outcome, [readNumbers] makes
    at most [maxNumbers] reads. *)
Theorem readNumbers_reads_at_most_maxNumbers fileName numbers maxNumbers st :
  exists evs,
    trace (snd (readNumbers fileName numbers maxNumbers st)) = (trace st ++ evs)%list /\
    (count_reads evs <= Z.to_nat maxNumbers)%nat.
Proof.
  destruct (fileOpen_returns fileName st) as [fileNo Hopen].
  assert (Htr : trace (snd (fileOpen fileName st))
                = (trace st ++ [EvOpen fileName fileNo])%list).
  { revert Hopen. unfold fileOpen. destruct (fs st fileName); intros [= <-]; reflexivity. }
  set (st1 := snd (fileOpen fileName st)) in *.
  destruct (Z.le_gt_cases fileNo 0) as [Hle|Hpos].
  - rewrite (readNumbers_not_opened _ _ _ _ _ _ Hopen Hle). simpl.
    exists [EvOpen fileName fileNo]. split; [exact Htr|simpl; lia].
  - rewrite (readNumbers_opened _ _ _ _ _ _ Hopen Hpos).
    destruct (read_loop_reads fileNo numbers maxNumbers 0 st1) as (evs & Hevs & Hcount).
    exists (EvOpen fileName fileNo :: evs ++ [EvClose fileNo])%list. split.
    + destruct (read_loop fileNo numbers maxNumbers 0 st1) as [[n|e] st2];
        simpl in *; rewrite Hevs, Htr, <- !app_assoc; reflexivity.
    + simpl. rewrite count_reads_app. simpl.
      rewrite Z.sub_0_r in Hcount. lia.
Qed.

(** What [readNumbers] leaves alone, whatever the outcome. *)
Lemma readNumbers_frame fileName numbers maxNumbers st :
  untouched (Z.pos (next_fileNo st)) numbers st
    (snd (readNumbers fileName numbers maxNumbers st)).
Proof.
  unfold readNumbers, bind, fileOpen.
  destruct (fs st fileName) as [code|content].
  - destruct (Z.leb_spec (- Z.of_N code) 0); [|lia]. repeat split.
  - set (fileNo := Z.pos (next_fileNo st)).
    destruct (Z.leb_spec fileNo 0); [subst fileNo; lia|].
    unfold try_except, try_finally.
    set (st1 := log _ _).
    pose proof (read_loop_untouched fileNo numbers maxNumbers 0 st1)
      as (Hfs & Hin & Hout & Hheap & Hh).
    destruct (read_loop fileNo numbers maxNumbers 0 st1) as [[n|e] st2]; simpl in *.
    + repeat split; try assumption.
      intros k Hk. unfold log, set_handles. simpl.
      rewrite lookup_delete_ne by congruence.
      rewrite Hh by exact Hk. apply lookup_insert_ne. congruence.
    + destruct e as [[] msg]; simpl; repeat split; try assumption;
        intros k Hk; unfold log, set_handles; simpl;
        (rewrite lookup_delete_ne by congruence);
        (rewrite Hh by exact Hk); apply lookup_insert_ne; congruence.
Qed.

(** X8: [readNumbers] touches nothing but the list it is given and the
    handle it opens: the file system, standard input and output, every
    other list and every other open handle are as they were, whatever the
    outcome. *)
Theorem readNumbers_untouched fileName numbers maxNumbers st :
  untouched (Z.pos (next_fileNo st)) numbers st
    (snd (readNumbers fileName numbers maxNumbers st)).
Proof. apply readNumbers_frame. Qed.

(** * Further properties of the main program *)

(** The failures of [readNumbers]: the failure of the open, or the
    [NameError] of its except clause; no other exception leaves it. *)
Lemma readNumbers_raises fileName numbers maxNumbers st e st' :
  readNumbers fileName numbers maxNumbers st = (Raise e, st') ->
  e = name_error "error" \/ e = mkExn Exception "File could not be opened!".
Proof.
  intros Hrun. destruct (fileOpen_returns fileName st) as [fileNo Hopen].
  destruct (Z.le_gt_cases fileNo 0) as [Hle|Hpos].
  - rewrite (readNumbers_not_opened _ _ _ _ _ _ Hopen Hle) in Hrun.
    injection Hrun as <- _. right. reflexivity.
  - rewrite (readNumbers_opened _ _ _ _ _ _ Hopen Hpos) in Hrun.
    destruct (read_loop fileNo numbers maxNumbers 0 _) as [[n|e'] st2];
      [discriminate|].
    injection Hrun as <- _. left. reflexivity.
Qed.



(** ** The report on a list that holds the numbers *)

Lemma range_from_0 (n : Z) : range 0 n 1 = Z.of_nat <$> seq 0 (Z.to_nat n).
Proof.
  unfold range. change (0 <? 1) with true. cbv iota.
  replace (n - 0 + 1 - 1) with n by lia. rewrite Z.div_1_r.
  apply list_fmap_ext. intros i x _. lia.
Qed.

Lemma for_in_app {A} (ks ks' : list Z) (body : Z -> A -> M A) (acc : A) (st : state) :
  for_in (ks ++ ks') body acc st
  = (acc' <- for_in ks body acc ;; for_in ks' body acc') st.
Proof.
  revert acc st. unfold bind.
  induction ks as [|k ks IH]; intros acc st; simpl.
  - destruct (for_in ks' body acc st) as [[a|e] st1]; reflexivity.
  - unfold bind. destruct (body k acc st) as [[acc'|e] st1]; [|reflexivity].
    apply IH.
Qed.

Lemma as_float_convertible (v : Z) (st : state) :
  convertible v -> as_float v st = (Ret (float_of_int v), st).
Proof.
  unfold convertible, as_float. destruct (float_of_int v); intros H;
    [reflexivity|contradiction|reflexivity|reflexivity].
Qed.

(** The summation loop over indices [i], ..., [i + m - 1] that lie in the
    list: it yields the binary64 sum of these items and leaves the state
    as it is. *)
Lemma for_in_sum (values : ref) (l : list Z) (st : state) :
  heap st !! values = Some l ->
  forall (m i : nat) (acc : float),
    (i + m <= length l)%nat ->
    Forall convertible (take m (drop i l)) ->
    for_in (Z.of_nat <$> seq i m)
      (fun k sum => v <- list_getitem values k ;; float_add_int sum v) acc st
    = (Ret (float_sum (take m (drop i l)) acc), st).
Proof.
  intros Hl. induction m as [|m IH]; intros i acc Hlen Hconv.
  - reflexivity.
  - destruct (lookup_lt_is_Some_2 l i) as [v Hv]; [lia|].
    rewrite (drop_S _ _ _ Hv) in *. simpl in Hconv. inversion Hconv as [|? ? Hcv Hrest]; subst.
    simpl. unfold bind at 1. unfold bind at 1. unfold list_getitem. rewrite Hl.
    rewrite list_index_in_range by lia. rewrite Nat2Z.id, Hv.
    unfold float_add_int, bind. rewrite (as_float_convertible _ _ Hcv). unfold ret.
    rewrite (IH (S i)) by (assumption || lia). reflexivity.
Qed.

(** X10: on a list whose first [nValues] items have binary64 values,
    with [nValues] positive, the report prints their binary64 sum, added
    from left to right from 0.0, then that sum divided by [nValues], and
    ends without a failure. *)
Theorem report_sum_and_average (values : ref) (nValues : Z) (l : list Z) (st : state)
    (s : bool) (m : positive) (e : Z) :
  heap st !! values = Some l ->
  0 < nValues <= Z.of_nat (length l) ->
  Forall convertible (take (Z.to_nat nValues) l) ->
  float_of_int nValues = S754_finite s m e ->
  let sum := float_sum (take (Z.to_nat nValues) l) (S754_zero false) in
  report values nValues st
  = (Ret tt,
     emit (average_line (SFdiv 53 1024 sum (float_of_int nValues)))
       (emit (sum_line sum) st)).
Proof.
  intros Hl Hn Hconv Hcount sum. unfold report.
  replace (nValues - 1 + 1) with nValues by lia. rewrite range_from_0.
  unfold bind at 1.
  rewrite (for_in_sum values l st Hl (Z.to_nat nValues) 0 (S754_zero false))
    by (rewrite ?drop_0; assumption || lia).
  rewrite drop_0. fold sum. unfold print at 1. unfold bind at 1.
  unfold float_truediv_int, bind, as_float. rewrite Hcount. reflexivity.
Qed.

Lemma report_sum_and_average_witness :
  let st := with_list [1; 2; 3; 4; 99] (sample_state []) in
  Forall convertible (take (Z.to_nat 4) [1; 2; 3; 4; 99]) /\
  float_of_int 4 = S754_finite false 4503599627370496 (-50) /\
  report 0%nat 4 st
  = (Ret tt,
     emit (average_line
             (SFdiv 53 1024
                (float_sum (take (Z.to_nat 4) [1; 2; 3; 4; 99]) (S754_zero false))
                (float_of_int 4)))
       (emit (sum_line (float_sum (take (Z.to_nat 4) [1; 2; 3; 4; 99]) (S754_zero false)))
          st)).
Proof.
  assert (Hconv : Forall convertible (take (Z.to_nat 4) [1; 2; 3; 4; 99]))
    by (repeat constructor).
  split; [exact Hconv|]. split; [reflexivity|].
  apply (report_sum_and_average 0%nat 4 [1; 2; 3; 4; 99]
           (with_list [1; 2; 3; 4; 99] (sample_state []))
           false 4503599627370496 (-50)).
  - reflexivity.
  - simpl. lia.
  - exact Hconv.
  - reflexivity.
Defined.

(** X11: when every item of the list has a binary64 value and the count
    is above the length of the list, the report fails with [IndexError]
    at the first index beyond the list, before anything is printed. *)
Theorem report_count_beyond_list (values : ref) (nValues : Z) (l : list Z) (st : state) :
  heap st !! values = Some l ->
  Z.of_nat (length l) < nValues ->
  Forall convertible l ->
  report values nValues st = (Raise (mkExn IndexError "list index out of range"), st).
Proof.
  intros Hl Hn Hconv. unfold report.
  replace (nValues - 1 + 1) with nValues by lia. rewrite range_from_0.
  replace (Z.to_nat nValues)
    with (length l + S (Z.to_nat nValues - S (length l)))%nat by lia.
  rewrite seq_app, fmap_app. simpl seq. rewrite fmap_cons.
  unfold bind at 1. rewrite for_in_app. unfold bind at 1.
  rewrite (for_in_sum values l st Hl (length l) 0 (S754_zero false))
    by (rewrite ?drop_0, ?take_ge; assumption || lia).
  simpl. unfold bind at 1. unfold bind at 1. unfold list_getitem. rewrite Hl.
  assert (list_index (length l) (Z.of_nat (length l)) = None) as ->.
  { unfold list_index.
    destruct (Z.leb_spec 0 (Z.of_nat (length l))),
      (Z.ltb_spec (Z.of_nat (length l)) (Z.of_nat (length l))),
      (Z.leb_spec (- Z.of_nat (length l)) (Z.of_nat (length l))),
      (Z.ltb_spec (Z.of_nat (length l)) 0); simpl; try reflexivity; lia. }
  reflexivity.
Qed.

Lemma report_count_beyond_list_witness :
  let st := with_list [1; 2] (sample_state []) in
  Forall convertible [1; 2] /\
  report 0%nat 3 st = (Raise (mkExn IndexError "list index out of range"), st).
Proof.
  assert (Hconv : Forall convertible [1; 2]) by (repeat constructor).
  split; [exact Hconv|].
  apply (report_count_beyond_list 0%nat 3 [1; 2] (with_list [1; 2] (sample_state []))).
  - reflexivity.
  - simpl. lia.
  - exact Hconv.
Defined.
